(** * Denoiser and spectrogram generator of intro-ml-2024

    A shallow embedding of [src/audio/denoise.py] and
    [src/audio/spectrogram.py] (with the older [src/spectrogram.py]).

    Conventions of the embedding.
    - A Python [float] is an exact rational ([Q]): rounding, infinities
      and NaN are not part of the model.  Python's true division raises
      [ZeroDivisionError] on a zero divisor, and so does [truediv] here.
      The module [Binary64] runs the frequency guard on IEEE floats at
      the inputs the statements name.
    - A raised exception is the left injection of [py A], a returned
      value the right one; sequencing is the monad of [sum exception].
    - SciPy, librosa, matplotlib and Pillow are libraries, not code of
      the repository: their entry points are the fields of the classes
      [SciPySignal], [Librosa] and [Imaging].  What a theorem needs
      from a library it assumes through a contract class, and the
      contract is shown to hold for a direct-form-II-transposed cascade
      ([sosfilt_df2t]), the recurrence SciPy documents for [sosfilt].
    - [matplotlib.pyplot] keeps a registry of open figures whose last
      entry is the current figure; the calls of the form [plt.f(...)]
      act on that figure.  The registry is the state of the [plt]
      monad.
    - [process] of [src/scripts/spectrogram_script.py] talks to
      collaborators that are not among the sources (the audio reader,
      the random pick, the cleaning pipeline, the generator class of
      [src/pipeline]).  A run is the list of the calls it makes, in
      surroundings that answer each call, or raise, as a function of
      the calls made before. *)

From Stdlib Require Import QArith Lqa String Ascii List ZArith Lia Bool.
From Stdlib Require Import DecimalString DecimalNat.
From Corelib Require Import PrimFloat SpecFloat FloatOps FloatAxioms.
From ExtLib Require Import Structures.Monad Structures.MonadExc
  Structures.MonadState Data.Monads.EitherMonad Data.Monads.StateMonad.
Import ListNotations MonadNotation.
Local Open Scope monad_scope.
Local Open Scope Q_scope.

(** ** Python values and exceptions *)

(** [class DenoiseType(Enum): BASIC = 1] *)
Inductive DenoiseType : Set :=
| BASIC.

Definition DenoiseType_value (t : DenoiseType) : Z :=
  match t with
  | BASIC => 1%Z
  end.

(** The objects a caller can hand to the [denoise_type] parameter: the
    annotation [DenoiseType] is not enforced at run time. *)
Inductive pyobject : Type :=
| py_enum (member : DenoiseType)
| py_int (n : Z)
| py_str (s : string)
| py_None.

(** [a == b].  An [Enum] member is equal to itself only; in particular
    [DenoiseType.BASIC == 1] is [False]. *)
Definition py_eq (a b : pyobject) : bool :=
  match a, b with
  | py_enum BASIC, py_enum BASIC => true
  | py_int m, py_int n => Z.eqb m n
  | py_str s, py_str t => String.eqb s t
  | py_None, py_None => true
  | _, _ => false
  end.

(** The text of a [ValueError], kept structured: the two f-strings of
    [denoise.py] with the values they interpolate, and the messages of
    the libraries. *)
Inductive message : Type :=
| Unsupported_denoise_type (denoise_type : pyobject)
| Invalid_critical_frequencies (low high : Q)
| Library_message (text : string).

Inductive exception : Type :=
| ValueError (msg : message)
| ZeroDivisionError.

(** A computation that returns an [A] or raises. *)
Definition py : Type -> Type := sum exception.


Definition raises {A : Type} (c : py A) : Prop :=
  exists e, c = inl e.

(** [a / b] on floats. *)
Definition truediv (a b : Q) : py Q :=
  if Qeq_bool b 0 then raise ZeroDivisionError else ret (a / b).

(** ** scipy.signal *)

(** One second-order section, a row [b0 b1 b2 a0 a1 a2] of the array
    that [butter(..., output='sos')] returns. *)
Record section : Type := mk_section
  { b0 : Q; b1 : Q; b2 : Q; a0 : Q; a1 : Q; a2 : Q }.

Definition sos_array : Type := list section.

Inductive btype : Set :=
| lowpass
| highpass
| band
| bandstop.

Inductive filter_output : Set :=
| output_ba
| output_zpk
| output_sos.

(** [butter(N, Wn, analog=..., btype=..., output=...)] for a two-element
    [Wn], and [sosfilt(sos, x)]. *)
Class SciPySignal : Type :=
  { butter : nat -> Q * Q -> bool -> btype -> filter_output -> py sos_array;
    sosfilt : sos_array -> list Q -> py (list Q) }.

(** ** src/audio/denoise.py *)

Section Denoise.
Context {scipy : SciPySignal}.

(** [def butter_bandpass(lowcut, highcut, fs, order=18)] *)
Definition butter_bandpass (lowcut highcut fs : Q) (order : option nat)
  : py sos_array :=
  let order := match order with Some n => n | None => 18%nat end in
  let nyquist := 0.5 * fs in
  low <- truediv lowcut nyquist ;;
  high <- truediv highcut nyquist ;;
  if Qle_bool low 0 || Qle_bool 1 high
  then raise (ValueError (Invalid_critical_frequencies low high))
  else butter order (low, high) false band output_sos.

(** [def denoise_basic(chunk, fs)] *)
Definition denoise_basic (chunk : list Q) (fs : Q) : py (list Q) :=
  let lowcut := 80.0 in
  let highcut := 8200.0 in
  sos <- butter_bandpass lowcut highcut fs None ;;
  filtered_chunk <- sosfilt sos chunk ;;
  ret filtered_chunk.

(** [def denoise(chunk, fs, denoise_type=DenoiseType.BASIC)] *)
Definition denoise (chunk : list Q) (fs : Q) (denoise_type : pyobject)
  : py (list Q) :=
  if py_eq denoise_type (py_enum BASIC)
  then denoise_basic chunk fs
  else raise (ValueError (Unsupported_denoise_type denoise_type)).

End Denoise.

(** ** A reference instance of the scipy.signal interface *)

(** One sample through one section in direct form II transposed, the
    inner loop of SciPy's [sosfilt]:
    [x_new = b0*x_cur + z0; z0 = b1*x_cur - a1*x_new + z1;
     z1 = b2*x_cur - a2*x_new]. *)
Definition biquad_step (s : section) (z : Q * Q) (x_cur : Q) : Q * (Q * Q) :=
  let x_new := b0 s * x_cur + fst z in
  (x_new, (b1 s * x_cur - a1 s * x_new + snd z, b2 s * x_cur - a2 s * x_new)).

(** One sample through the cascade; [zi] holds one delay pair per
    section. *)
Fixpoint cascade_step (sos : sos_array) (zi : list (Q * Q)) (x_cur : Q)
  : Q * list (Q * Q) :=
  match sos, zi with
  | s :: sos', z :: zi' =>
      let '(x_new, z') := biquad_step s z x_cur in
      let '(y, zi'') := cascade_step sos' zi' x_new in
      (y, z' :: zi'')
  | _, _ => (x_cur, [])
  end.

(** The outer loop over the samples. *)
Fixpoint run_cascade (sos : sos_array) (zi : list (Q * Q)) (x : list Q)
  : list Q :=
  match x with
  | [] => []
  | x_cur :: x' =>
      let '(y, zi') := cascade_step sos zi x_cur in
      y :: run_cascade sos zi' x'
  end.

(** The delay pairs after the samples of [x] have gone through. *)
Fixpoint final_state (sos : sos_array) (zi : list (Q * Q)) (x : list Q)
  : list (Q * Q) :=
  match x with
  | [] => zi
  | x_cur :: x' => final_state sos (snd (cascade_step sos zi x_cur)) x'
  end.

(** [sosfilt(sos, x)] with zero initial conditions; SciPy refuses an
    array whose [a0] column is not all ones. *)
Definition sosfilt_df2t (sos : sos_array) (x : list Q) : py (list Q) :=
  if forallb (fun s => Qeq_bool (a0 s) 1) sos
  then ret (run_cascade sos (repeat (0, 0) (length sos)) x)
  else raise (ValueError (Library_message "sos[:, 3] should be all ones")).

(** A design routine with [butter]'s interface and rational
    coefficients: [N] sections for a band-pass of order [N], each the
    identity section, and a [ValueError] outside [0 < low < high < 1].
    It stands where theorems are run on concrete inputs. *)
Definition identity_section : section := mk_section 1 0 0 1 0 0.

Definition butter_identity (N : nat) (Wn : Q * Q) (analog : bool)
  (kind : btype) (output : filter_output) : py sos_array :=
  let '(low, high) := Wn in
  if Qle_bool low 0 || Qle_bool 1 high
  then raise (ValueError
         (Library_message "Digital filter critical frequencies must be 0 < Wn < 1"))
  else if Qle_bool high low
  then raise (ValueError (Library_message "Wn[0] must be less than Wn[1]"))
  else ret (repeat identity_section N).

Definition scipy_reference : SciPySignal :=
  {| butter := butter_identity; sosfilt := sosfilt_df2t |}.


(** One period (80 samples) of a 200 Hz sine sampled at 16000 Hz,
    [sin(2*pi*200*n/16000)], to four decimals. *)
Definition sine_quarter : list Q :=
  [0.0000; 0.0785; 0.1564; 0.2334; 0.3090; 0.3827; 0.4540; 0.5225;
   0.5878; 0.6494; 0.7071; 0.7604; 0.8090; 0.8526; 0.8910; 0.9239;
   0.9511; 0.9724; 0.9877; 0.9969].

Definition sine_half : list Q :=
  sine_quarter ++ [1.0000] ++ rev (tl sine_quarter).

Definition sine_200Hz_period : list Q :=
  sine_half ++ map Qopp sine_half.

(** [periods] periods of it. *)
Definition sine_200Hz_16kHz (periods : nat) : list Q :=
  concat (repeat sine_200Hz_period periods).

(** ** Project constants and audio data *)

(** The constants that [spectrogram.py] imports from [src/constants.py],
    a module that is not among the sources: their values are
    parameters. *)
Class Constants : Type :=
  { SPECTROGRAM_WIDTH : Z;
    SPECTROGRAM_HEIGHT : Z;
    DENOISE_FREQ_HIGH_CUT : Q }.

(** Modelled from the spec: [src/audio/audio_data.py] is not among the
    sources; an audio buffer is a sequence of samples with a sample
    rate in Hz, read by the code as [audio.audio_signal] and
    [audio.sample_rate]. *)
Record AudioData : Type := mk_AudioData
  { audio_signal : list Q;
    sample_rate : Z }.

(** ** librosa and numpy *)

(** The [ref] argument of the decibel conversions: a number or a
    callable, of which the code uses [np.max]. *)
Inductive db_reference : Type :=
| ref_value (v : Q)
| ref_np_max.

Class Librosa : Type :=
  { (** a real and a complex two-dimensional array *)
    matrix : Type;
    cmatrix : Type;
    (** [melspectrogram(y=, sr=, n_fft=, hop_length=, n_mels=, fmax=)] *)
    melspectrogram : list Q -> Z -> nat -> nat -> nat -> Q -> matrix;
    (** [stft(y, n_fft=, hop_length=)] *)
    stft : list Q -> nat -> nat -> cmatrix;
    np_abs : cmatrix -> matrix;
    (** [power_to_db(S, ref=)] and [amplitude_to_db(S, ref=)] *)
    power_to_db : matrix -> db_reference -> matrix;
    amplitude_to_db : matrix -> db_reference -> matrix }.

(** ** matplotlib figures *)

Section Figures.
Context {librosa : Librosa}.

(** An [Axes] object is known by the number of the figure it belongs
    to; the figures of this program have one subplot each. *)
Record Axes : Type := mk_Axes
  { axes_figure : nat }.

(** The [QuadMesh] that [specshow] returns: the array it maps to
    colours and the axes it was drawn on. *)
Record QuadMesh : Type := mk_QuadMesh
  { mesh_array : matrix;
    mesh_axes : Axes }.

(** What has been drawn on a figure, call by call.  A colour bar
    records the array of its mappable and whether the mappable was
    drawn on this very figure. *)
Inductive artist_call : Type :=
| add_subplot_call
| specshow_call (data : matrix) (sr : Z) (fmax : option Q)
    (x_axis y_axis : option string)
| colorbar_call (mappable : matrix) (on_this_figure : bool) (format : string)
| title_call (label : string)
| axis_call (arg : string)
| tight_layout_call (pad : Q)
| subplots_adjust_call (left right top bottom : Q).

Record Figure : Type := mk_Figure
  { figsize : Q * Q;
    dpi : Q;
    calls : list artist_call }.

End Figures.

(** The renderer of matplotlib, Pillow's decoder and numpy's array
    conversion. *)
Class Imaging {librosa : Librosa} : Type :=
  { rcParams : Type;
    rc_figsize : rcParams -> Q * Q;
    rc_dpi : rcParams -> Q;
    (** the contents of an encoded image file *)
    bytes : Type;
    (** [savefig(target, format=, bbox_inches=, pad_inches=)]: the
        bytes written for a figure under a configuration; a [format]
        of [None] is read off the file name *)
    print_figure : rcParams -> Figure -> option string -> string -> Q -> bytes;
    PIL_Image : Type;
    Image_open : bytes -> PIL_Image;
    Image_convert : PIL_Image -> string -> PIL_Image;
    ndarray : Type;
    np_array : PIL_Image -> ndarray }.

Section Pyplot.
Context {librosa : Librosa} {imaging : Imaging}.

(** The state shared by every call into [matplotlib.pyplot]: the open
    figures by number, the last one being the current figure; the
    configuration; and the files written so far. *)
Record process_state : Type := mk_state
  { figs : list (nat * Figure);
    rc : rcParams;
    disk : list (string * bytes) }.

Definition plt : Type -> Type := state process_state.

Definition fignums (s : process_state) : list nat := map fst (figs s).

(** [max(allnums) + 1 if allnums else 1] *)
Definition next_num (s : process_state) : nat := S (list_max (fignums s)).

Definition set_figs (s : process_state) (l : list (nat * Figure))
  : process_state :=
  {| figs := l; rc := rc s; disk := disk s |}.

Definition write_file (s : process_state) (path : string) (contents : bytes)
  : process_state :=
  {| figs := figs s; rc := rc s; disk := (path, contents) :: disk s |}.

(** [plt.figure(figsize=, dpi=)]: a new figure, made current. *)
Definition plt_figure (size : Q * Q) (resolution : Q) : plt nat :=
  s <- get ;;
  let num := next_num s in
  put (set_figs s (figs s ++ [(num, mk_Figure size resolution [])])) ;;
  ret num.

(** [plt.gcf()]: the current figure, made first when none is open. *)
Definition plt_gcf : plt nat :=
  s <- get ;;
  match last (map Some (fignums s)) None with
  | Some num => ret num
  | None => plt_figure (rc_figsize (rc s)) (rc_dpi (rc s))
  end.

Definition record_call (num : nat) (c : artist_call) (entry : nat * Figure)
  : nat * Figure :=
  let '(n, f) := entry in
  if Nat.eqb n num
  then (n, mk_Figure (figsize f) (dpi f) (calls f ++ [c]))
  else (n, f).

(** Draw on the figure numbered [num]. *)
Definition draw (num : nat) (c : artist_call) : plt unit :=
  s <- get ;;
  put (set_figs s (map (record_call num c) (figs s))).

(** Draw on the current figure, as [plt.title], [plt.axis], ... do. *)
Definition draw_current (c : artist_call) : plt unit :=
  num <- plt_gcf ;;
  draw num c.

(** The figure a handle denotes.  The handles of this program denote
    open figures; a closed one reads as an empty figure. *)
Definition figure_of (s : process_state) (num : nat) : Figure :=
  match find (fun entry => Nat.eqb (fst entry) num) (figs s) with
  | Some entry => snd entry
  | None => mk_Figure (rc_figsize (rc s)) (rc_dpi (rc s)) []
  end.

(** [fig, ax = plt.subplots(figsize=, dpi=)] *)
Definition plt_subplots (size : Q * Q) (resolution : Q) : plt (nat * Axes) :=
  fig <- plt_figure size resolution ;;
  draw fig add_subplot_call ;;
  ret (fig, mk_Axes fig).

(** [librosa.display.specshow(data, sr=, fmax=, x_axis=, y_axis=, ax=)] *)
Definition specshow (data : matrix) (sr : Z) (fmax : option Q)
  (x_axis y_axis : option string) (ax : Axes) : plt QuadMesh :=
  draw (axes_figure ax) (specshow_call data sr fmax x_axis y_axis) ;;
  ret (mk_QuadMesh data ax).

(** [plt.colorbar(mappable, format=)]: a colour bar on the current
    figure. *)
Definition plt_colorbar (mappable : QuadMesh) (format : string) : plt unit :=
  num <- plt_gcf ;;
  draw num (colorbar_call (mesh_array mappable)
              (Nat.eqb (axes_figure (mesh_axes mappable)) num) format).

Definition plt_title (label : string) : plt unit :=
  draw_current (title_call label).

Definition plt_axis (arg : string) : plt unit :=
  draw_current (axis_call arg).

Definition plt_tight_layout (pad : Q) : plt unit :=
  draw_current (tight_layout_call pad).

Definition plt_subplots_adjust (left right top bottom : Q) : plt unit :=
  draw_current (subplots_adjust_call left right top bottom).

(** [fig.savefig(buf, format=, bbox_inches=, pad_inches=)] into a fresh
    [BytesIO]: the bytes that [buf] then holds. *)
Definition fig_savefig (fig : nat) (format : option string)
  (bbox_inches : string) (pad_inches : Q) : plt bytes :=
  s <- get ;;
  ret (print_figure (rc s) (figure_of s fig) format bbox_inches pad_inches).

(** [plt.savefig(path, bbox_inches=, pad_inches=)]: the current figure,
    written to [path]. *)
Definition plt_savefig (path : string) (bbox_inches : string)
  (pad_inches : Q) : plt unit :=
  fig <- plt_gcf ;;
  contents <- fig_savefig fig None bbox_inches pad_inches ;;
  s <- get ;;
  put (write_file s path contents).

(** [plt.close(fig)] *)
Definition plt_close (fig : nat) : plt unit :=
  s <- get ;;
  put (set_figs s (filter (fun entry => negb (Nat.eqb (fst entry) fig)) (figs s))).

End Pyplot.

(** ** src/audio/spectrogram.py *)

Section Spectrogram.
Context {constants : Constants} {librosa : Librosa} {imaging : Imaging}.

(** [def gen_spectrogram(audio, mel=False, show_axis=False,
         width=SPECTROGRAM_WIDTH, height=SPECTROGRAM_HEIGHT)] *)
Definition gen_spectrogram (audio : AudioData) (mel show_axis : bool)
  (width height : Z) : plt ndarray :=
  let dpi := 100 in
  let s_db :=
    if mel
    then
      let s := melspectrogram (audio_signal audio) (sample_rate audio)
                 4096 512 512 DENOISE_FREQ_HIGH_CUT in
      power_to_db s ref_np_max
    else
      let s := stft (audio_signal audio) 4096 512 in
      amplitude_to_db (np_abs s) ref_np_max in
  '(fig, ax) <- plt_subplots (inject_Z width / dpi, inject_Z height / dpi) dpi ;;
  img <- (if mel
          then specshow s_db (sample_rate audio) (Some DENOISE_FREQ_HIGH_CUT)
                 (Some "time"%string) (Some "mel"%string) ax
          else specshow s_db (sample_rate audio) None
                 (Some "time"%string) (Some "log"%string) ax) ;;
  (if show_axis
   then plt_colorbar img "%+2.0f dB" ;;
        plt_title "Spectrogram"
   else plt_axis "off" ;;
        plt_tight_layout 0 ;;
        plt_subplots_adjust 0 1 1 0) ;;
  buf <- fig_savefig fig (Some "png"%string) "tight" 0 ;;
  let image := Image_convert (Image_open buf) "RGB" in
  let image_array := np_array image in
  plt_close fig ;;
  ret image_array.

End Spectrogram.

(** ** src/spectrogram.py, the older generator *)

Module Legacy.
Section Spectrogram.
Context {librosa : Librosa} {imaging : Imaging}.

(** [def gen_spectrogram(audio_data, sample_rate, save_to_file=True,
         save_path="./image_spectrograms/spectrogram.png",
         show_axis=False, width=400, height=300)] *)
Definition gen_spectrogram (audio_data : list Q) (sample_rate : Z)
  (save_to_file : bool) (save_path : string) (show_axis : bool)
  (width height : Z) : plt ndarray :=
  let dpi := 100 in
  let fmax := 8000 in
  let S := melspectrogram audio_data sample_rate 4096 512 512 fmax in
  let S_db := power_to_db S ref_np_max in
  let width_in_inches := inject_Z width / dpi in
  let height_in_inches := inject_Z height / dpi in
  '(fig, ax) <- plt_subplots (width_in_inches, height_in_inches) dpi ;;
  (if show_axis
   then img <- specshow S_db sample_rate (Some fmax)
                 (Some "time"%string) (Some "mel"%string) ax ;;
        plt_colorbar img "%+2.0f dB" ;;
        plt_title "Mel-Frequency Spectrogram"
   else img <- specshow S_db sample_rate (Some fmax) None None ax ;;
        plt_axis "off" ;;
        plt_tight_layout 0 ;;
        plt_subplots_adjust 0 1 1 0) ;;
  (if save_to_file
   then plt_savefig save_path "tight" 0
   else ret tt) ;;
  buf <- fig_savefig fig (Some "png"%string) "tight" 0 ;;
  let image := Image_convert (Image_open buf) "RGB" in
  let image_array := np_array image in
  plt_close fig ;;
  ret image_array.

End Spectrogram.
End Legacy.

(** ** Vocabulary of the statements *)

(** A returned buffer with every sample as a reduced fraction. *)
Definition reduced (c : py (list Q)) : py (list Q) :=
  match c with
  | inr y => inr (map Qred y)
  | inl e => inl e
  end.

Section Vocabulary.
Context {constants : Constants} {librosa : Librosa} {imaging : Imaging}.

(** No open figure carries the number [n]. *)
Definition fresh (n : nat) (l : list (nat * Figure)) : Prop :=
  Forall (fun entry => fst entry <> n) l.

(** The decibel matrix of each mode of [gen_spectrogram]. *)
Definition decibels (audio : AudioData) (mel : bool) : matrix :=
  if mel
  then power_to_db
         (melspectrogram (audio_signal audio) (sample_rate audio)
            4096 512 512 DENOISE_FREQ_HIGH_CUT) ref_np_max
  else amplitude_to_db
         (np_abs (stft (audio_signal audio) 4096 512)) ref_np_max.

(** What is drawn after the mesh: the legend and the title, or the
    removal of axes and margins. *)
Definition decorations (audio : AudioData) (mel show_axis : bool)
  : list artist_call :=
  if show_axis
  then [colorbar_call (decibels audio mel) true "%+2.0f dB";
        title_call "Spectrogram"]
  else [axis_call "off"; tight_layout_call 0; subplots_adjust_call 0 1 1 0].

(** The figure of [gen_spectrogram] at the moment it is saved. *)
Definition drawn_figure (audio : AudioData) (mel show_axis : bool)
  (width height : Z) : Figure :=
  mk_Figure (inject_Z width / 100, inject_Z height / 100) 100
    (add_subplot_call ::
     specshow_call (decibels audio mel) (sample_rate audio)
       (if mel then Some DENOISE_FREQ_HIGH_CUT else None)
       (Some "time"%string) (Some (if mel then "mel" else "log")%string) ::
     decorations audio mel show_axis).

End Vocabulary.

(** ** A symbolic instance of the libraries *)

(** Every library function is a constructor, so that a run of the
    generator shows the calls it made and nothing is identified that
    the libraries might tell apart. *)
Inductive array_term : Type :=
| mel_term (y : list Q) (sr : Z) (n_fft hop_length n_mels : nat) (fmax : Q)
| stft_term (y : list Q) (n_fft hop_length : nat)
| abs_term (a : array_term)
| power_db_term (a : array_term) (ref : db_reference)
| amplitude_db_term (a : array_term) (ref : db_reference).

Definition librosa_symbolic : Librosa :=
  {| matrix := array_term;
     cmatrix := array_term;
     melspectrogram := mel_term;
     stft := stft_term;
     np_abs := abs_term;
     power_to_db := power_db_term;
     amplitude_to_db := amplitude_db_term |}.

Record saved_term : Type := mk_saved
  { saved_figure : @Figure librosa_symbolic;
    saved_format : option string;
    saved_bbox_inches : string;
    saved_pad_inches : Q }.

Inductive image_term : Type :=
| opened (contents : saved_term)
| converted (image : image_term) (mode : string).

Definition imaging_symbolic : @Imaging librosa_symbolic :=
  {| rcParams := unit;
     rc_figsize := fun _ => (6.4, 4.8);
     rc_dpi := fun _ => 100;
     bytes := saved_term;
     print_figure := fun _ => mk_saved;
     PIL_Image := image_term;
     Image_open := opened;
     Image_convert := converted;
     ndarray := image_term;
     np_array := fun image => image |}.

(** Values for the constants, for the runs below: the size the
    docstring of [gen_spectrogram] names and the cutoff of the
    denoiser. *)
Definition constants_example : Constants :=
  {| SPECTROGRAM_WIDTH := 400;
     SPECTROGRAM_HEIGHT := 300;
     DENOISE_FREQ_HIGH_CUT := 8200 |}.

(** A state with two figures open, numbered 3 and 1, the latter
    current. *)
Definition busy_state : @process_state librosa_symbolic imaging_symbolic :=
  {| figs := [(3%nat, mk_Figure (6.4, 4.8) 100 [title_call "left open"]);
              (1%nat, mk_Figure (2, 2) 72 [])];
     rc := (tt : @rcParams librosa_symbolic imaging_symbolic);
     disk := [] |}.

(** ** The frequency guard in IEEE binary64 *)

(** The arithmetic of [butter_bandpass] on the floats Python computes
    with, up to the call of [butter]: it is run on the inputs that the
    statements below name, beside the exact model. *)
Module Binary64.

Inductive outcome : Set :=
| raises_ZeroDivisionError
| raises_Invalid_critical_frequencies (low high : float)
| calls_butter (order : nat) (low high : float).

Definition butter_bandpass (lowcut highcut fs : float) (order : option nat)
  : outcome :=
  let order := match order with Some n => n | None => 18%nat end in
  let nyquist := (0.5 * fs)%float in
  if (nyquist =? 0)%float then raises_ZeroDivisionError else
  let low := (lowcut / nyquist)%float in
  let high := (highcut / nyquist)%float in
  if (low <=? 0)%float || (1 <=? high)%float
  then raises_Invalid_critical_frequencies low high
  else calls_butter order low high.

Definition rejected (o : outcome) : bool :=
  match o with
  | raises_Invalid_critical_frequencies _ _ => true
  | _ => false
  end.

Definition reaches_butter (o : outcome) : bool :=
  match o with
  | calls_butter _ _ _ => true
  | _ => false
  end.

End Binary64.

(** ** Calls in sequence *)

Section Sequences.
Context {librosa : Librosa} {imaging : Imaging}.


End Sequences.

(** ** src/audio/spectrogram.py: save_spectrogram *)

(** The entry that [imshow(X)] leaves on a figure.  The entries of
    [artist_call] are those the generators make; the one for an image
    is a parameter. *)
Class ImagePlot {librosa : Librosa} {imaging : Imaging} : Type :=
  { imshow_call : ndarray -> artist_call }.

Section Saving.
Context {librosa : Librosa} {imaging : Imaging} {image_plot : ImagePlot}.

Definition is_add_subplot (c : artist_call) : bool :=
  match c with
  | add_subplot_call => true
  | _ => false
  end.

(** [plt.gca()]: the axes of the current figure, added when it has
    none. *)
Definition plt_gca : plt Axes :=
  fig <- plt_gcf ;;
  s <- get ;;
  if existsb is_add_subplot (calls (figure_of s fig))
  then ret (mk_Axes fig)
  else draw fig add_subplot_call ;;
       ret (mk_Axes fig).

(** [plt.imshow(X)] *)
Definition plt_imshow (X : ndarray) : plt unit :=
  ax <- plt_gca ;;
  draw (axes_figure ax) (imshow_call X).

(** [plt.close()]: closes the current figure, if there is one. *)
Definition plt_close_current : plt unit :=
  s <- get ;;
  match last (map Some (fignums s)) None with
  | Some num => plt_close num
  | None => ret tt
  end.

(** [def save_spectrogram(spectrogram, file_path)] *)
Definition save_spectrogram (spectrogram : ndarray) (file_path : string)
  : plt unit :=
  plt_imshow spectrogram ;;
  plt_axis "off" ;;
  plt_savefig file_path "tight" 0 ;;
  plt_close_current.

End Saving.

(** In the symbolic instance an image is entered as a title naming the
    call. *)
Definition image_plot_symbolic : @ImagePlot librosa_symbolic imaging_symbolic :=
  {| imshow_call := fun _ => title_call "imshow" |}.

(** ** src/scripts/spectrogram_script.py *)

(** [s.split(sep)] for a separator of one character: the pieces between
    the occurrences of [sep], at least one piece. *)
Fixpoint str_split (sep : ascii) (s : string) : list string :=
  match s with
  | EmptyString => [EmptyString]
  | String c rest =>
      if Ascii.eqb c sep
      then EmptyString :: str_split sep rest
      else match str_split sep rest with
           | piece :: pieces => String c piece :: pieces
           | [] => [String c EmptyString]
           end
  end.

(** [str(i)] for an index of [range(n)]. *)
Definition str_of_nat (i : nat) : string :=
  NilEmpty.string_of_uint (Nat.to_uint i).


Section Script.
Variables image_array failure : Type.

(** What [process] asks of its collaborators, none of which is among
    the sources: the random pick of a file, the audio reader, the
    cleaning pipeline, the spectrogram generator and writer of
    [src/pipeline], the standard output and [matplotlib.pyplot]. *)
Inductive call : Type :=
| get_random_file_path_call (directory : option string) (extension : string)
| print_call (text : string)
| sf_read_call (path : string)
| pipeline_fit_call (X : list AudioData)
| pipeline_transform_call (X : list AudioData)
| gen_spectrogram_call (audio : AudioData) (mel show_axis : bool)
| save_spectrogram_call (spectrogram : image_array) (path : string)
| plt_imshow_call (spectrogram : image_array)
| plt_axis_call (arg : string)
| plt_subplots_adjust_call (left right top bottom : Q)
| plt_show_call.

(** What a call returns when it returns. *)
Definition answer (c : call) : Type :=
  match c with
  | get_random_file_path_call _ _ => string
  | sf_read_call _ => (list Q * Z)%type
  | pipeline_transform_call _ => list AudioData
  | gen_spectrogram_call _ _ _ => image_array
  | _ => unit
  end.

(** The surroundings of a run: what each call returns or raises, given
    the calls made so far. *)
Definition environment : Type :=
  forall (history : list call) (c : call), failure + answer c.

Inductive raised : Type :=
| IndexError
| collaborator_error (e : failure).

(** A run in given surroundings, from the calls made so far to the
    calls made in the end and the value returned or the exception
    raised. *)
Definition script (A : Type) : Type :=
  environment -> list call -> list call * (raised + A).

#[local] Instance Monad_script : Monad script :=
  {| ret := fun _ a _ history => (history, inr a);
     bind := fun _ _ c k env history =>
       match c env history with
       | (history', inr a) => k a env history'
       | (history', inl e) => (history', inl e)
       end |}.

Definition perform (c : call) : script (answer c) :=
  fun env history =>
    (history ++ [c],
     match env history c with
     | inr a => inr a
     | inl e => inl (collaborator_error e)
     end).

(** [l[k]] *)
Definition getitem {A : Type} (l : list A) (k : nat) : script A :=
  fun _ history =>
    (history,
     match nth_error l k with
     | Some a => inr a
     | None => inl IndexError
     end).

(** [for i in range(start, start + count): body(i)] *)
Fixpoint for_range (start count : nat) (body : nat -> script unit)
  : script unit :=
  match count with
  | O => ret tt
  | S count' => body start ;; for_range (S start) count' body
  end.

(** The number of samples after
    [if not isinstance(number_of_samples, int) or number_of_samples < 1:
         number_of_samples = 1]. *)
Definition samples (number_of_samples : pyobject) : nat :=
  match number_of_samples with
  | py_int n => if (n <? 1)%Z then 1%nat else Z.to_nat n
  | _ => 1%nat
  end.


(** The body of the loop of [process], at index [i]. *)
Definition process_sample (sound_path directory : option string)
  (output_path : option string) (show mel clean_data show_axis : bool)
  (i : nat) : script unit :=
  new_sound_path <-
    (match sound_path with
     | Some path =>
         if String.eqb path ""
         then perform (get_random_file_path_call directory ".wav")
         else ret path
     | None => perform (get_random_file_path_call directory ".wav")
     end) ;;
  perform (print_call new_sound_path) ;;
  '(data, samplerate) <- perform (sf_read_call new_sound_path) ;;
  let audio_data := mk_AudioData data samplerate in
  audio_data <-
    (if clean_data
     then perform (pipeline_fit_call [audio_data]) ;;
          transformed <- perform (pipeline_transform_call [audio_data]) ;;
          getitem transformed 0
     else ret audio_data) ;;
  spectrogram <- perform (gen_spectrogram_call audio_data mel show_axis) ;;
  (match output_path with
   | Some path =>
       if String.eqb path ""
       then ret tt
       else
         let split_path := str_split "." path in
         first <- getitem split_path 0 ;;
         second <- getitem split_path 1 ;;
         perform (save_spectrogram_call spectrogram
                    (first ++ str_of_nat i ++ "." ++ second)%string)
   | None => ret tt
   end) ;;
  (if show
   then perform (plt_imshow_call spectrogram) ;;
        perform (plt_axis_call "off") ;;
        perform (plt_subplots_adjust_call 0 1 1 0) ;;
        perform plt_show_call
   else ret tt).

(** [def process(sound_path="", directory="", number_of_samples=1,
         output_path=None, show=False, mel=False, clean_data=False,
         show_axis=False)] *)
Definition process (sound_path directory : option string)
  (number_of_samples : pyobject) (output_path : option string)
  (show mel clean_data show_axis : bool) : script unit :=
  for_range 0 (samples number_of_samples)
    (process_sample sound_path directory output_path show mel clean_data
       show_axis).

(** The paths handed to [save_spectrogram], in order. *)
Definition saved_paths (history : list call) : list string :=
  flat_map (fun c => match c with
                     | save_spectrogram_call _ path => [path]
                     | _ => []
                     end) history.

(** The paths read, in order. *)
Definition read_paths (history : list call) : list string :=
  flat_map (fun c => match c with
                     | sf_read_call path => [path]
                     | _ => []
                     end) history.

Definition is_pick (c : call) : bool :=
  match c with
  | get_random_file_path_call _ _ => true
  | _ => false
  end.

Definition is_gen (c : call) : bool :=
  match c with
  | gen_spectrogram_call _ _ _ => true
  | _ => false
  end.

End Script.

Arguments IndexError {failure}.
Arguments collaborator_error {failure} e.
Arguments process {image_array failure}.
Arguments process_sample {image_array failure}.
Arguments saved_paths {image_array}.
Arguments read_paths {image_array}.
Arguments is_pick {image_array}.
Arguments is_gen {image_array}.

(** Surroundings in which every call returns: the pick is
    [picked.wav], every file holds two samples at 16000 Hz, the
    pipeline returns what it is given, and a spectrogram is the audio
    and the flags it was asked for. *)
Definition quiet : environment (AudioData * bool * bool) string :=
  fun _ c =>
    match c return string + answer (AudioData * bool * bool) c with
    | get_random_file_path_call _ _ _ => inr "picked.wav"%string
    | print_call _ _ => inr tt
    | sf_read_call _ _ => inr ([0; 1], 16000%Z)
    | pipeline_fit_call _ _ => inr tt
    | pipeline_transform_call _ X => inr X
    | gen_spectrogram_call _ audio mel show_axis => inr (audio, mel, show_axis)
    | save_spectrogram_call _ _ _ => inr tt
    | plt_imshow_call _ _ => inr tt
    | plt_axis_call _ _ => inr tt
    | plt_subplots_adjust_call _ _ _ _ _ => inr tt
    | plt_show_call _ => inr tt
    end.

(** ** Vocabulary of the statements on the script *)

Section ScriptVocabulary.
Variables image_array failure : Type.

(** The name under which sample [i] is saved, when there is one: the
    first two pieces of [output_path] around the index. *)
Definition expected_saves (output_path : option string) (i : nat)
  : list string :=
  match output_path with
  | Some path =>
      if String.eqb path "" then []
      else match str_split "." path with
           | first :: second :: _ =>
               [(first ++ str_of_nat i ++ "." ++ second)%string]
           | _ => []
           end
  | None => []
  end.

(** An output path is given and has no second piece. *)
Definition lacks_extension (output_path : option string) : bool :=
  match output_path with
  | Some path =>
      negb (String.eqb path "") &&
      match str_split "." path with
      | _ :: _ :: _ => false
      | _ => true
      end
  | None => false
  end.

(** The sound path, when one is given. *)
Definition fixed_path (sound_path : option string) : option string :=
  match sound_path with
  | Some path => if String.eqb path "" then None else Some path
  | None => None
  end.

Definition is_prefix {A : Type} (l1 l2 : list A) : Prop :=
  exists rest, l2 = l1 ++ rest.

(** A call that picks no file and prints or reads no other path than
    [path]. *)
Definition about_path (path : string) (c : call image_array) : Prop :=
  match c with
  | get_random_file_path_call _ _ _ => False
  | print_call _ text => text = path
  | sf_read_call _ read => read = path
  | _ => True
  end.

(** Surroundings in which every call returns and the pipeline returns
    at least one sample. *)
Definition reliable (env : environment image_array failure) : Prop :=
  (forall history c, exists a, env history c = inr a) /\
  (forall history audio,
      env history (pipeline_transform_call image_array [audio]) <> inr []).

(** What one turn of the loop does, in terms of the calls it made and
    of how it ended. *)
Definition sample_facts (sound_path output_path : option string)
  (env : environment image_array failure) (i : nat)
  (made : list (call image_array)) (r : raised failure + unit) : Prop :=
  is_prefix (saved_paths made) (expected_saves output_path i) /\
  (r = inr tt ->
   saved_paths made = expected_saves output_path i /\
   length (filter is_gen made) = 1%nat /\
   lacks_extension output_path = false) /\
  (forall e, r = inl (collaborator_error e) ->
             exists history c, env history c = inl e) /\
  (r = inl IndexError ->
   lacks_extension output_path = true \/
   exists history audio,
     env history (pipeline_transform_call image_array [audio]) = inr []) /\
  (forall path, fixed_path sound_path = Some path ->
                Forall (about_path path) made).

(** The turns of a loop [for i in range(start, start + count)], each
    described by [P]: the loop ends with the first turn that raises. *)
Inductive turns
  (P : nat -> list (call image_array) -> raised failure + unit -> Prop)
  : nat -> nat -> list (call image_array) -> raised failure + unit -> Prop :=
| turns_none (start : nat) : turns P start 0 [] (inr tt)
| turns_raise (start count : nat) (made : list (call image_array))
    (e : raised failure) :
    P start made (inl e) -> turns P start (S count) made (inl e)
| turns_next (start count : nat) (made made' : list (call image_array))
    (r : raised failure + unit) :
    P start made (inr tt) ->
    turns P (S start) count made' r ->
    turns P start (S count) (made ++ made') r.

End ScriptVocabulary.

Arguments expected_saves output_path i : clear implicits.
Arguments is_prefix {A} l1 l2.
Arguments about_path {image_array} path c.
Arguments reliable {image_array failure} env.
Arguments sample_facts {image_array failure}.
Arguments turns {image_array failure}.

(** * Runs on concrete inputs *)

(** The impulse response of one section, [b = (1, 2, 1)],
    [a = (1, -1/2, 1/4)]: [y[n] = x[n] + 2 x[n-1] + x[n-2]
    + y[n-1]/2 - y[n-2]/4]. *)
Example sosfilt_df2t_impulse :
  reduced (sosfilt_df2t [mk_section 1 2 1 1 (- (1 # 2)) (1 # 4)] [1; 0; 0; 0])
  = inr [1; 5 # 2; 2; 3 # 8].
Proof. reflexivity. Qed.

Example sosfilt_df2t_unnormalised :
  sosfilt_df2t [mk_section 1 2 1 2 0 0] [1; 0] =
  inl (ValueError (Library_message "sos[:, 3] should be all ones")).
Proof. reflexivity. Qed.

Example denoise_reference_44100 :
  reduced (@denoise scipy_reference [1; 2; 3] 44100 (py_enum BASIC)) =
  inr [1; 2; 3].
Proof. vm_compute. reflexivity. Qed.

Example denoise_reference_zero_rate :
  @denoise scipy_reference [1; 2; 3] 0 (py_enum BASIC) = inl ZeroDivisionError.
Proof. reflexivity. Qed.

Example denoise_reference_None :
  @denoise scipy_reference [1; 2; 3] 44100 py_None =
  inl (ValueError (Unsupported_denoise_type py_None)).
Proof. reflexivity. Qed.

Example sine_period_length : length sine_200Hz_period = 80%nat.
Proof. reflexivity. Qed.

(** The linear mode with axes, from a state with two figures open: the
    new figure gets the number 4, every call lands on it, and the
    state comes back unchanged. *)
Example gen_spectrogram_symbolic_run :
  runState
    (@gen_spectrogram constants_example librosa_symbolic imaging_symbolic
       (mk_AudioData [0; 1; 0; -1] 16000) false true 400 300)
    busy_state =
  (let s_db : @matrix librosa_symbolic :=
     amplitude_db_term (abs_term (stft_term [0; 1; 0; -1] 4096 512))
       ref_np_max in
   converted
     (opened
        (mk_saved
           (mk_Figure (inject_Z 400 / 100, inject_Z 300 / 100) 100
              [add_subplot_call;
               specshow_call s_db 16000 None
                 (Some "time"%string) (Some "log"%string);
               colorbar_call s_db true "%+2.0f dB";
               title_call "Spectrogram"])
           (Some "png"%string) "tight" 0))
     "RGB",
   busy_state).
Proof. reflexivity. Qed.

Example next_num_busy : next_num busy_state = 4%nat.
Proof. reflexivity. Qed.

(** The same guard on binary64 floats. *)
Example binary64_rejects_16000 :
  Binary64.rejected (Binary64.butter_bandpass 80 8200 16000 None) = true.
Proof. reflexivity. Qed.

Example binary64_rejects_16400 :
  Binary64.butter_bandpass 80 8200 16400 None =
  Binary64.raises_Invalid_critical_frequencies (80 / 8200)%float 1%float.
Proof. reflexivity. Qed.

Example binary64_accepts_44100 :
  Binary64.reaches_butter (Binary64.butter_bandpass 80 8200 44100 None) = true.
Proof. reflexivity. Qed.

Example binary64_reversed_band :
  Binary64.butter_bandpass 300 200 16000 None =
  Binary64.calls_butter 18 (300 / 8000)%float (200 / 8000)%float.
Proof. reflexivity. Qed.

Example binary64_nan_rate :
  Binary64.butter_bandpass 80 8200 nan None = Binary64.calls_butter 18 nan nan.
Proof. reflexivity. Qed.

Example binary64_zero_rate :
  Binary64.butter_bandpass 80 8200 0 None = Binary64.raises_ZeroDivisionError.
Proof. reflexivity. Qed.

(** * Properties *)

(** ** Division and the frequency guard *)

Lemma truediv_nonzero (a b : Q) : ~ b == 0 -> truediv a b = inr (a / b).
Proof.
  intros Hb. unfold truediv.
  destruct (Qeq_bool b 0) eqn:E; [|reflexivity].
  apply Qeq_bool_eq in E. contradiction.
Qed.

Lemma truediv_zero (a b : Q) : b == 0 -> truediv a b = inl ZeroDivisionError.
Proof.
  intros Hb. unfold truediv. rewrite (Qeq_eq_bool _ _ Hb). reflexivity.
Qed.

Lemma nyquist_nonzero (fs : Q) : ~ fs == 0 -> ~ 0.5 * fs == 0.
Proof. intros H E. apply H. lra. Qed.

Lemma Qle_bool_false (x y : Q) : Qle_bool x y = false <-> y < x.
Proof.
  split; intros H.
  - apply Qnot_le_lt. intros Hle. apply Qle_bool_iff in Hle. congruence.
  - destruct (Qle_bool x y) eqn:E; [|reflexivity].
    apply Qle_bool_iff in E. lra.
Qed.

Lemma py_eq_BASIC (v : pyobject) :
  py_eq v (py_enum BASIC) = true <-> v = py_enum BASIC.
Proof.
  split.
  - destruct v as [[]| | |]; simpl; intros H; (reflexivity || discriminate).
  - intros ->. reflexivity.
Qed.

Section DenoiseFacts.
Context {scipy : SciPySignal}.

(** With a non-zero sampling rate both quotients are computed and the
    function is its guard followed by the call of [butter]. *)
Lemma butter_bandpass_unfold (lowcut highcut fs : Q) (order : option nat) :
  ~ fs == 0 ->
  butter_bandpass lowcut highcut fs order =
  if Qle_bool (lowcut / (0.5 * fs)) 0 || Qle_bool 1 (highcut / (0.5 * fs))
  then inl (ValueError (Invalid_critical_frequencies
                          (lowcut / (0.5 * fs)) (highcut / (0.5 * fs))))
  else butter (match order with Some n => n | None => 18%nat end)
         (lowcut / (0.5 * fs), highcut / (0.5 * fs)) false band output_sos.
Proof.
  intros Hfs. unfold butter_bandpass.
  rewrite !(truediv_nonzero _ _ (nyquist_nonzero fs Hfs)). reflexivity.
Qed.

(** At a sampling rate of zero the first division raises. *)
Lemma butter_bandpass_zero_rate (lowcut highcut fs : Q) (order : option nat) :
  fs == 0 -> butter_bandpass lowcut highcut fs order = inl ZeroDivisionError.
Proof.
  intros Hfs. unfold butter_bandpass.
  rewrite truediv_zero by lra. reflexivity.
Qed.

(** The guard fires when [low <= 0] or [high >= 1] ... *)
Lemma butter_bandpass_rejects (lowcut highcut fs : Q) (order : option nat) :
  ~ fs == 0 ->
  lowcut / (0.5 * fs) <= 0 \/ 1 <= highcut / (0.5 * fs) ->
  butter_bandpass lowcut highcut fs order =
  inl (ValueError (Invalid_critical_frequencies
                     (lowcut / (0.5 * fs)) (highcut / (0.5 * fs)))).
Proof.
  intros Hfs H. rewrite butter_bandpass_unfold by assumption.
  destruct H as [H|H]; apply Qle_bool_iff in H; rewrite H.
  - reflexivity.
  - rewrite orb_true_r. reflexivity.
Qed.

(** ... and lets every other band through to [butter], whether or
    not [low < high]. *)
Lemma butter_bandpass_accepts (lowcut highcut fs : Q) (order : option nat) :
  ~ fs == 0 ->
  0 < lowcut / (0.5 * fs) -> highcut / (0.5 * fs) < 1 ->
  butter_bandpass lowcut highcut fs order =
  butter (match order with Some n => n | None => 18%nat end)
    (lowcut / (0.5 * fs), highcut / (0.5 * fs)) false band output_sos.
Proof.
  intros Hfs Hlow Hhigh. rewrite butter_bandpass_unfold by assumption.
  apply Qle_bool_false in Hlow, Hhigh. rewrite Hlow, Hhigh. reflexivity.
Qed.

(** The fixed band of [denoise_basic] is rejected at every non-zero
    rate up to 16400 Hz. *)
Lemma basic_band_rejected (fs : Q) :
  ~ fs == 0 -> fs <= 16400 ->
  80.0 / (0.5 * fs) <= 0 \/ 1 <= 8200.0 / (0.5 * fs).
Proof.
  intros Hfs Hle. destruct (Qlt_le_dec 0 fs) as [Hpos|Hneg].
  - right. apply Qle_shift_div_l; lra.
  - left.
    assert (Hlt : fs < 0).
    { apply Qle_lteq in Hneg. destruct Hneg; [assumption | contradiction]. }
    setoid_replace (80.0 / (0.5 * fs)) with (- (80.0 / (0.5 * - fs))).
    + assert (0 <= 80.0 / (0.5 * - fs)) by (apply Qle_shift_div_l; lra). lra.
    + field. lra.
Qed.

Lemma denoise_basic_low_rate (chunk : list Q) (fs : Q) :
  ~ fs == 0 -> fs <= 16400 ->
  denoise_basic chunk fs =
  inl (ValueError (Invalid_critical_frequencies
                     (80.0 / (0.5 * fs)) (8200.0 / (0.5 * fs)))).
Proof.
  intros Hfs Hle. unfold denoise_basic.
  rewrite butter_bandpass_rejects by (auto using basic_band_rejected).
  reflexivity.
Qed.

Lemma denoise_basic_high_rate (chunk : list Q) (fs : Q) :
  16400 < fs ->
  denoise_basic chunk fs =
  (sos <- butter 18 (80.0 / (0.5 * fs), 8200.0 / (0.5 * fs))
            false band output_sos ;;
   sosfilt sos chunk).
Proof.
  intros Hfs. unfold denoise_basic.
  rewrite butter_bandpass_accepts.
  - destruct (butter _ _ _ _ _) as [e|sos]; [reflexivity|].
    simpl. destruct (sosfilt sos chunk); reflexivity.
  - lra.
  - apply Qlt_shift_div_l; lra.
  - apply Qlt_shift_div_r; lra.
Qed.

Lemma denoise_BASIC (chunk : list Q) (fs : Q) :
  denoise chunk fs (py_enum BASIC) = denoise_basic chunk fs.
Proof. reflexivity. Qed.

End DenoiseFacts.

(** ** The reference cascade *)

Lemma run_cascade_length (sos : sos_array) (x : list Q) :
  forall zi, length (run_cascade sos zi x) = length x.
Proof.
  induction x as [|x_cur x' IH]; intros zi; simpl.
  - reflexivity.
  - destruct (cascade_step sos zi x_cur) as [y zi']. simpl.
    rewrite IH. reflexivity.
Qed.

(** The cascade is causal: the output for a prefix of the input is the
    prefix of the output, and the rest continues from the delay pairs
    the prefix leaves. *)
Lemma run_cascade_app (sos : sos_array) (x x' : list Q) :
  forall zi,
    run_cascade sos zi (x ++ x') =
    run_cascade sos zi x ++ run_cascade sos (final_state sos zi x) x'.
Proof.
  induction x as [|x_cur x0 IH]; intros zi; simpl.
  - reflexivity.
  - destruct (cascade_step sos zi x_cur) as [y zi']. simpl.
    rewrite IH. reflexivity.
Qed.




(** The forward filter is causal: filtering a prefix of the input
    gives the prefix of the output. *)
Lemma sosfilt_df2t_causal (sos : sos_array) (x x' y : list Q) :
  sosfilt_df2t sos (x ++ x') = inr y ->
  sosfilt_df2t sos x = inr (firstn (length x) y).
Proof.
  unfold sosfilt_df2t.
  destruct (forallb (fun s => Qeq_bool (a0 s) 1) sos); [|discriminate].
  intros H. injection H as <-. simpl. f_equal.
  rewrite run_cascade_app.
  set (head := run_cascade sos (repeat (0, 0) (length sos)) x).
  assert (Hlen : length x = length head) by (symmetry; apply run_cascade_length).
  rewrite Hlen, firstn_app, Nat.sub_diag, firstn_all. simpl.
  rewrite app_nil_r. reflexivity.
Qed.


(** ** The claims on the denoiser *)


(** C2, as the code has it.  Denoising the 200 Hz sine sampled at
    16000 Hz in mode BASIC returns no buffer: the guard raises, since
    8200 / 8000 >= 1. *)
Theorem denoise_sine_at_16kHz_raises :
  forall (scipy : SciPySignal) (periods : nat),
    denoise (sine_200Hz_16kHz periods) 16000 (py_enum BASIC) =
    inl (ValueError (Invalid_critical_frequencies
                       (80.0 / (0.5 * 16000)) (8200.0 / (0.5 * 16000)))).
Proof.
  intros scipy periods. rewrite denoise_BASIC.
  apply denoise_basic_low_rate; [intros H | ]; lra.
Qed.

(** C2, as the spec states it, fails: no implementation of the
    library makes the call return a buffer. *)
Lemma denoise_sine_at_16kHz_returns_nothing :
  ~ exists (scipy : SciPySignal) (filtered : list Q),
      denoise (sine_200Hz_16kHz 1) 16000 (py_enum BASIC) = inr filtered.
Proof.
  intros (scipy & filtered & H).
  rewrite denoise_BASIC, denoise_basic_low_rate in H;
    [discriminate | intros E; lra | lra].
Qed.

(** C3.  At every sampling rate up to 16400 Hz, mode BASIC raises
    and returns no buffer, whatever the chunk; unless the rate is zero
    (where the division by the Nyquist frequency raises
    [ZeroDivisionError]) the exception is the [ValueError] of the
    frequency guard.  8000 Hz and 16000 Hz are such rates. *)
Theorem denoise_basic_raises_up_to_16400 :
  forall (scipy : SciPySignal) (chunk : list Q) (fs : Q),
    fs <= 16400 ->
    raises (denoise chunk fs (py_enum BASIC)) /\
    (~ fs == 0 ->
     denoise chunk fs (py_enum BASIC) =
     inl (ValueError (Invalid_critical_frequencies
                        (80.0 / (0.5 * fs)) (8200.0 / (0.5 * fs))))).
Proof.
  intros scipy chunk fs Hle. rewrite denoise_BASIC.
  destruct (Qeq_dec fs 0) as [Hzero|Hfs].
  - split; [|contradiction].
    exists ZeroDivisionError. unfold denoise_basic.
    rewrite butter_bandpass_zero_rate by assumption. reflexivity.
  - rewrite denoise_basic_low_rate by assumption.
    split; [eexists|intros _]; reflexivity.
Qed.

(** The two common speech rates. *)
Lemma denoise_basic_raises_at_8000_and_16000 :
  @denoise scipy_reference [1; 2; 3] 8000 (py_enum BASIC) =
  inl (ValueError (Invalid_critical_frequencies
                     (80.0 / (0.5 * 8000)) (8200.0 / (0.5 * 8000)))) /\
  @denoise scipy_reference [1; 2; 3] 16000 (py_enum BASIC) =
  inl (ValueError (Invalid_critical_frequencies
                     (80.0 / (0.5 * 16000)) (8200.0 / (0.5 * 16000)))).
Proof.
  split.
  - apply (denoise_basic_raises_up_to_16400 scipy_reference [1; 2; 3] 8000).
    + vm_compute. discriminate.
    + intros H. vm_compute in H. discriminate.
  - apply (denoise_basic_raises_up_to_16400 scipy_reference [1; 2; 3] 16000).
    + vm_compute. discriminate.
    + intros H. vm_compute in H. discriminate.
Defined.

(** C4.  For a positive sampling rate, [lowcut <= 0] or
    [highcut >= fs/2] makes the filter design fail with the
    "Invalid critical frequencies" [ValueError]. *)
Theorem butter_bandpass_invalid_range :
  forall (scipy : SciPySignal) (lowcut highcut fs : Q) (order : option nat),
    0 < fs ->
    lowcut <= 0 \/ fs / 2 <= highcut ->
    butter_bandpass lowcut highcut fs order =
    inl (ValueError (Invalid_critical_frequencies
                       (lowcut / (0.5 * fs)) (highcut / (0.5 * fs)))).
Proof.
  intros scipy lowcut highcut fs order Hfs H.
  apply butter_bandpass_rejects.
  - intros E. lra.
  - destruct H as [H|H].
    + left. apply Qle_shift_div_r; lra.
    + right. apply Qle_shift_div_l; [lra|].
      setoid_replace (1 * (0.5 * fs)) with (fs / 2) by field. assumption.
Qed.

(** A high cutoff on the Nyquist frequency itself. *)
Lemma butter_bandpass_invalid_range_at_nyquist :
  @butter_bandpass scipy_reference 80 8000 16000 None =
  inl (ValueError (Invalid_critical_frequencies
                     (80 / (0.5 * 16000)) (8000 / (0.5 * 16000)))).
Proof.
  apply (butter_bandpass_invalid_range scipy_reference 80 8000 16000 None).
  - reflexivity.
  - right. vm_compute. discriminate.
Defined.

(** C5.  A [denoise_type] other than [DenoiseType.BASIC] raises the
    "Unsupported denoise type" [ValueError] and nothing is returned;
    [DenoiseType.BASIC] runs [denoise_basic]. *)
Theorem denoise_dispatch :
  forall (scipy : SciPySignal) (chunk : list Q) (fs : Q)
         (denoise_type : pyobject),
    (denoise_type <> py_enum BASIC ->
     denoise chunk fs denoise_type =
     inl (ValueError (Unsupported_denoise_type denoise_type))) /\
    denoise chunk fs (py_enum BASIC) = denoise_basic chunk fs.
Proof.
  intros scipy chunk fs denoise_type. split; [|reflexivity].
  intros Hneq. unfold denoise.
  destruct (py_eq denoise_type (py_enum BASIC)) eqn:E; [|reflexivity].
  apply py_eq_BASIC in E. contradiction.
Qed.

(** The bare value of the member is not the member. *)
Lemma denoise_rejects_the_integer_1 :
  @denoise scipy_reference [1; 2; 3] 44100 (py_int 1) =
  inl (ValueError (Unsupported_denoise_type (py_int 1))).
Proof.
  apply (proj1 (denoise_dispatch scipy_reference [1; 2; 3] 44100 (py_int 1))).
  discriminate.
Defined.



(** C7.  In mode BASIC, at a rate above 16400 Hz, [denoise] is the
    design of a band-pass of order 18 with cutoffs 80 Hz and 8200 Hz
    (normalised by the Nyquist frequency [0.5 * fs]), digital, as
    second-order sections, followed by one pass of [sosfilt] over the
    chunk. *)
Theorem denoise_basic_is_sosfilt_of_butter_18_80_8200 :
  forall (scipy : SciPySignal) (chunk : list Q) (fs : Q),
    16400 < fs ->
    denoise chunk fs (py_enum BASIC) =
    (sos <- butter 18 (80.0 / (0.5 * fs), 8200.0 / (0.5 * fs))
              false band output_sos ;;
     sosfilt sos chunk).
Proof.
  intros scipy chunk fs Hfs. rewrite denoise_BASIC.
  apply denoise_basic_high_rate; assumption.
Qed.

(** At 44100 Hz, through the reference instance. *)
Lemma denoise_basic_is_sosfilt_of_butter_at_44100 :
  @denoise scipy_reference [1; 2; 3] 44100 (py_enum BASIC) =
  (sos <- @butter scipy_reference 18 (80.0 / (0.5 * 44100), 8200.0 / (0.5 * 44100))
            false band output_sos ;;
   @sosfilt scipy_reference sos [1; 2; 3]).
Proof.
  apply (denoise_basic_is_sosfilt_of_butter_18_80_8200 scipy_reference
           [1; 2; 3] 44100).
  reflexivity.
Defined.

(** ** The figure registry *)

Section PyplotFacts.
Context {librosa : Librosa} {imaging : Imaging}.

Lemma run_bind {A B : Type} (m : plt A) (k : A -> plt B) (s : process_state) :
  runState (bind m k) s =
  let (v, s') := runState m s in runState (k v) s'.
Proof. reflexivity. Qed.

Lemma run_ret {A : Type} (a : A) (s : process_state) :
  runState (ret a : plt A) s = (a, s).
Proof. reflexivity. Qed.

Lemma set_figs_same (s : process_state) : set_figs s (figs s) = s.
Proof. destruct s; reflexivity. Qed.

Lemma next_num_fresh (s : process_state) : fresh (next_num s) (figs s).
Proof.
  unfold fresh, next_num, fignums. apply Forall_forall. intros [n f] Hin.
  simpl. assert (H : (n <= list_max (map fst (figs s)))%nat).
  { assert (Hall := proj1 (list_max_le (map fst (figs s)) _) (Nat.le_refl _)).
    rewrite Forall_forall in Hall. apply Hall.
    apply (in_map fst) in Hin. exact Hin. }
  lia.
Qed.

Lemma record_call_fresh (n : nat) (c : artist_call) (l : list (nat * Figure)) :
  fresh n l -> map (record_call n c) l = l.
Proof.
  induction 1 as [|[m f] l Hm _ IH]; simpl.
  - reflexivity.
  - simpl in Hm. rewrite (proj2 (Nat.eqb_neq m n) Hm), IH. reflexivity.
Qed.

Lemma find_fresh (n : nat) (l : list (nat * Figure)) (entry : nat * Figure) :
  fresh n l ->
  find (fun e => Nat.eqb (fst e) n) (l ++ [entry]) =
  find (fun e => Nat.eqb (fst e) n) [entry].
Proof.
  induction 1 as [|[m f] l Hm _ IH]; simpl.
  - reflexivity.
  - simpl in Hm. rewrite (proj2 (Nat.eqb_neq m n) Hm). exact IH.
Qed.

Lemma filter_fresh (n : nat) (l : list (nat * Figure)) :
  fresh n l ->
  filter (fun e => negb (Nat.eqb (fst e) n)) l = l.
Proof.
  induction 1 as [|[m f] l Hm _ IH]; simpl.
  - reflexivity.
  - simpl in Hm. rewrite (proj2 (Nat.eqb_neq m n) Hm), IH. reflexivity.
Qed.

Lemma last_fignum (l : list (nat * Figure)) (n : nat) (f : Figure) :
  last (map Some (map fst (l ++ [(n, f)]))) None = Some n.
Proof. rewrite !map_app. simpl. apply last_last. Qed.

(** The primitive calls, run in a state whose current figure is the
    figure [n] with contents [f], on top of the figures [l]. *)
Lemma plt_figure_run (size : Q * Q) (resolution : Q) (s : process_state) :
  runState (plt_figure size resolution) s =
  (next_num s,
   set_figs s (figs s ++ [(next_num s, mk_Figure size resolution [])])).
Proof. reflexivity. Qed.

Lemma draw_run (s : process_state) (l : list (nat * Figure)) (n : nat)
  (f : Figure) (c : artist_call) :
  fresh n l ->
  runState (draw n c) (set_figs s (l ++ [(n, f)])) =
  (tt, set_figs s (l ++ [(n, mk_Figure (figsize f) (dpi f) (calls f ++ [c]))])).
Proof.
  intros Hl. unfold draw. simpl. rewrite map_app, record_call_fresh by assumption.
  simpl. rewrite Nat.eqb_refl. reflexivity.
Qed.

Lemma plt_gcf_run (s : process_state) (l : list (nat * Figure)) (n : nat)
  (f : Figure) :
  runState plt_gcf (set_figs s (l ++ [(n, f)])) =
  (n, set_figs s (l ++ [(n, f)])).
Proof.
  unfold plt_gcf. rewrite run_bind. simpl runState at 1. cbv iota beta.
  unfold fignums. simpl figs. rewrite last_fignum. reflexivity.
Qed.

Lemma draw_current_run (s : process_state) (l : list (nat * Figure)) (n : nat)
  (f : Figure) (c : artist_call) :
  fresh n l ->
  runState (draw_current c) (set_figs s (l ++ [(n, f)])) =
  (tt, set_figs s (l ++ [(n, mk_Figure (figsize f) (dpi f) (calls f ++ [c]))])).
Proof.
  intros Hl. unfold draw_current. rewrite run_bind, plt_gcf_run.
  apply draw_run. assumption.
Qed.

Lemma fig_savefig_run (s : process_state) (l : list (nat * Figure)) (n : nat)
  (f : Figure) (format : option string) (bbox_inches : string)
  (pad_inches : Q) :
  fresh n l ->
  runState (fig_savefig n format bbox_inches pad_inches)
    (set_figs s (l ++ [(n, f)])) =
  (print_figure (rc s) f format bbox_inches pad_inches,
   set_figs s (l ++ [(n, f)])).
Proof.
  intros Hl. unfold fig_savefig, figure_of. simpl.
  rewrite find_fresh by assumption. simpl. rewrite Nat.eqb_refl. reflexivity.
Qed.

Lemma plt_close_run (s : process_state) (l : list (nat * Figure)) (n : nat)
  (f : Figure) :
  fresh n l ->
  runState (plt_close n) (set_figs s (l ++ [(n, f)])) = (tt, set_figs s l).
Proof.
  intros Hl. unfold plt_close. simpl.
  rewrite filter_app, filter_fresh by assumption.
  simpl. rewrite Nat.eqb_refl. simpl. rewrite app_nil_r. reflexivity.
Qed.

Lemma plt_subplots_run (size : Q * Q) (resolution : Q) (s : process_state) :
  runState (plt_subplots size resolution) s =
  ((next_num s, mk_Axes (next_num s)),
   set_figs s (figs s ++
     [(next_num s, mk_Figure size resolution [add_subplot_call])])).
Proof.
  unfold plt_subplots. rewrite run_bind, plt_figure_run.
  rewrite run_bind, draw_run by apply next_num_fresh. reflexivity.
Qed.

Lemma specshow_run (s : process_state) (l : list (nat * Figure)) (n : nat)
  (f : Figure) (data : matrix) (sr : Z) (fmax : option Q)
  (x_axis y_axis : option string) :
  fresh n l ->
  runState (specshow data sr fmax x_axis y_axis (mk_Axes n))
    (set_figs s (l ++ [(n, f)])) =
  (mk_QuadMesh data (mk_Axes n),
   set_figs s (l ++ [(n, mk_Figure (figsize f) (dpi f)
      (calls f ++ [specshow_call data sr fmax x_axis y_axis]))])).
Proof.
  intros Hl. unfold specshow. rewrite run_bind. simpl axes_figure.
  rewrite draw_run by assumption. reflexivity.
Qed.

Lemma plt_colorbar_run (s : process_state) (l : list (nat * Figure)) (n : nat)
  (f : Figure) (data : matrix) (format : string) :
  fresh n l ->
  runState (plt_colorbar (mk_QuadMesh data (mk_Axes n)) format)
    (set_figs s (l ++ [(n, f)])) =
  (tt, set_figs s (l ++ [(n, mk_Figure (figsize f) (dpi f)
      (calls f ++ [colorbar_call data true format]))])).
Proof.
  intros Hl. unfold plt_colorbar. rewrite run_bind, plt_gcf_run.
  rewrite draw_run by assumption. simpl. rewrite Nat.eqb_refl. reflexivity.
Qed.

Lemma plt_savefig_run (s : process_state) (l : list (nat * Figure)) (n : nat)
  (f : Figure) (path bbox_inches : string) (pad_inches : Q) :
  fresh n l ->
  runState (plt_savefig path bbox_inches pad_inches)
    (set_figs s (l ++ [(n, f)])) =
  (tt,
   set_figs
     (write_file s path (print_figure (rc s) f None bbox_inches pad_inches))
     (l ++ [(n, f)])).
Proof.
  intros Hl. unfold plt_savefig.
  rewrite run_bind, plt_gcf_run, run_bind, fig_savefig_run by assumption.
  reflexivity.
Qed.

End PyplotFacts.

(** One call on the current figure, then the reduction of what it
    returned. *)
Ltac run_step :=
  first
    [ rewrite specshow_run by assumption
    | rewrite plt_colorbar_run by assumption
    | rewrite draw_current_run by assumption
    | rewrite fig_savefig_run by assumption
    | rewrite plt_savefig_run by assumption
    | rewrite plt_close_run by assumption
    | rewrite run_ret
    | rewrite run_bind ];
  cbn [figsize dpi calls app]; cbv beta iota.



(** ** The spectrogram generator *)

Section SpectrogramFacts.
Context {constants : Constants} {librosa : Librosa} {imaging : Imaging}.

(** One call of [gen_spectrogram], from any state: the pixels are those
    of [drawn_figure] under the configuration in force, and the state
    is left as it was found. *)
Lemma gen_spectrogram_run (audio : AudioData) (mel show_axis : bool)
  (width height : Z) (s : process_state) :
  runState (gen_spectrogram audio mel show_axis width height) s =
  (np_array
     (Image_convert
        (Image_open
           (print_figure (rc s) (drawn_figure audio mel show_axis width height)
              (Some "png"%string) "tight" 0))
        "RGB"),
   s).
Proof.
  pose proof (next_num_fresh s) as Hfresh.
  unfold gen_spectrogram, plt_title, plt_axis, plt_tight_layout,
    plt_subplots_adjust.
  rewrite run_bind, plt_subplots_run. cbv beta iota zeta.
  destruct mel, show_axis; repeat run_step;
    rewrite set_figs_same; reflexivity.
Qed.

End SpectrogramFacts.

Section CanvasFacts.
Context {constants : Constants} {librosa : Librosa} {imaging : Imaging}.

(** The figure is created with a canvas of [width] by [height] pixels:
    its size in inches times its resolution.  What the saved image
    measures is then up to the renderer ([bbox_inches='tight'] crops to
    what was drawn). *)
Lemma drawn_figure_canvas (audio : AudioData) (mel show_axis : bool)
  (width height : Z) :
  let figure := drawn_figure audio mel show_axis width height in
  fst (figsize figure) * dpi figure == inject_Z width /\
  snd (figsize figure) * dpi figure == inject_Z height.
Proof. simpl. split; field. Qed.

End CanvasFacts.

(** ** The older generator *)

Section LegacyFacts.
Context {librosa : Librosa} {imaging : Imaging}.


End LegacyFacts.

(** ** The claims on the spectrogram generator *)



(** * Further properties *)

(** ** The denoiser at its edges *)

(** X1.  A sampling rate of zero is not caught by the frequency guard:
    the division by the Nyquist frequency raises [ZeroDivisionError],
    whatever the cutoffs, the order and the chunk. *)
Theorem zero_rate_raises_ZeroDivisionError :
  forall (scipy : SciPySignal) (lowcut highcut fs : Q) (order : option nat)
         (chunk : list Q),
    fs == 0 ->
    butter_bandpass lowcut highcut fs order = inl ZeroDivisionError /\
    denoise chunk fs (py_enum BASIC) = inl ZeroDivisionError.
Proof.
  intros scipy lowcut highcut fs order chunk Hfs. split.
  - apply butter_bandpass_zero_rate. assumption.
  - rewrite denoise_BASIC. unfold denoise_basic.
    rewrite butter_bandpass_zero_rate by assumption. reflexivity.
Qed.

(** A rate written [0/7]. *)
Lemma zero_rate_raises_ZeroDivisionError_at_0 :
  @butter_bandpass scipy_reference 80 8200 (0 # 7) (Some 4%nat) =
  inl ZeroDivisionError /\
  @denoise scipy_reference [1; 2; 3] (0 # 7) (py_enum BASIC) =
  inl ZeroDivisionError.
Proof.
  apply (zero_rate_raises_ZeroDivisionError scipy_reference 80 8200 (0 # 7)
           (Some 4%nat) [1; 2; 3]).
  reflexivity.
Defined.

(** X2.  At a positive sampling rate the guard looks at [lowcut > 0]
    and [highcut < fs/2] and at nothing else: every such pair, be
    [highcut] below [lowcut], zero or negative, goes to [butter]
    with the order asked for (18 when none is), and what [butter]
    answers is the result. *)
Theorem butter_bandpass_hands_over :
  forall (scipy : SciPySignal) (lowcut highcut fs : Q) (order : option nat),
    0 < fs -> 0 < lowcut -> highcut < fs / 2 ->
    butter_bandpass lowcut highcut fs order =
    butter (match order with Some n => n | None => 18%nat end)
      (lowcut / (0.5 * fs), highcut / (0.5 * fs)) false band output_sos.
Proof.
  intros scipy lowcut highcut fs order Hfs Hlow Hhigh.
  assert (Hhalf : fs / 2 == 0.5 * fs) by field.
  rewrite Hhalf in Hhigh.
  apply (butter_bandpass_accepts lowcut highcut fs order).
  - intros E. lra.
  - apply Qlt_shift_div_l; lra.
  - apply Qlt_shift_div_r; lra.
Qed.

(** A high cutoff below zero, at order 4: the library is reached (and
    the reference library is the one that refuses). *)
Lemma butter_bandpass_hands_over_negative_highcut :
  @butter_bandpass scipy_reference 80 (-5) 16000 (Some 4%nat) =
  @butter scipy_reference 4 (80 / (0.5 * 16000), -5 / (0.5 * 16000))
    false band output_sos.
Proof.
  apply (butter_bandpass_hands_over scipy_reference 80 (-5) 16000
           (Some 4%nat)); reflexivity.
Defined.

(** ** The guard on IEEE floats: NaN *)

Lemma Prim2SF_nan : Prim2SF nan = S754_nan.
Proof. reflexivity. Qed.

Lemma div_nan_r (x : float) : (x / nan)%float = nan.
Proof.
  apply Prim2SF_inj. rewrite div_spec, Prim2SF_nan.
  unfold SF64div, SFdiv. destruct (Prim2SF x); reflexivity.
Qed.

Lemma div_nan_l (y : float) : (nan / y)%float = nan.
Proof.
  apply Prim2SF_inj. rewrite div_spec, Prim2SF_nan. reflexivity.
Qed.

(** X3.  No comparison with NaN holds, so NaN passes both tests of the
    guard.  With a NaN sampling rate every pair of cutoffs reaches
    [butter], as the band (NaN, NaN); and so does a pair of NaN
    cutoffs at every rate whose half is not zero. *)
Theorem binary64_nan_passes_the_guard :
  forall (lowcut highcut fs : float) (order : option nat),
    let N := match order with Some n => n | None => 18%nat end in
    Binary64.butter_bandpass lowcut highcut nan order =
    Binary64.calls_butter N nan nan /\
    (Binary64.butter_bandpass nan nan fs order =
     Binary64.raises_ZeroDivisionError \/
     Binary64.butter_bandpass nan nan fs order =
     Binary64.calls_butter N nan nan).
Proof.
  intros lowcut highcut fs order N. subst N. split.
  - unfold Binary64.butter_bandpass.
    change (0.5 * nan)%float with nan.
    change (nan =? 0)%float with false. cbv iota.
    rewrite !div_nan_r. reflexivity.
  - unfold Binary64.butter_bandpass.
    destruct (0.5 * fs =? 0)%float; [left; reflexivity | right].
    rewrite !div_nan_l. reflexivity.
Qed.

(** ** The generators, further *)

(** X4.  In linear mode the array that is drawn and saved is
    [amplitude_to_db(np.abs(stft(y, n_fft=4096, hop_length=512)),
    ref=np.max)], on a logarithmic frequency axis with no upper bound
    given; the configured cutoff plays no part. *)
Theorem gen_spectrogram_linear_mode :
  forall (constants : Constants) (librosa : Librosa) (imaging : Imaging)
         (audio : AudioData) (show_axis : bool) (width height : Z)
         (s : process_state),
    let s_db :=
      amplitude_to_db (np_abs (stft (audio_signal audio) 4096 512))
        ref_np_max in
    let figure :=
      mk_Figure (inject_Z width / 100, inject_Z height / 100) 100
        (add_subplot_call ::
         specshow_call s_db (sample_rate audio) None
           (Some "time"%string) (Some "log"%string) ::
         if show_axis
         then [colorbar_call s_db true "%+2.0f dB"; title_call "Spectrogram"]
         else [axis_call "off"; tight_layout_call 0;
               subplots_adjust_call 0 1 1 0]) in
    fst (runState (gen_spectrogram audio false show_axis width height) s) =
    np_array
      (Image_convert
         (Image_open (print_figure (rc s) figure (Some "png"%string) "tight" 0))
         "RGB").
Proof.
  intros constants librosa imaging audio show_axis width height s s_db figure.
  rewrite gen_spectrogram_run. subst s_db figure.
  destruct show_axis; reflexivity.
Qed.




(** ** Saving a spectrogram *)

Section SavingFacts.
Context {librosa : Librosa} {imaging : Imaging} {image_plot : ImagePlot}.

Lemma plt_gca_run (s : process_state) (l : list (nat * Figure)) (n : nat)
  (f : Figure) :
  fresh n l ->
  runState plt_gca (set_figs s (l ++ [(n, f)])) =
  (mk_Axes n,
   set_figs s (l ++ [(n, mk_Figure (figsize f) (dpi f)
      (calls f ++
       if existsb is_add_subplot (calls f) then [] else [add_subplot_call]))])).
Proof.
  intros Hl. unfold plt_gca. rewrite run_bind, plt_gcf_run.
  rewrite run_bind. simpl runState at 1. cbv beta iota.
  unfold figure_of. simpl figs. rewrite find_fresh by assumption.
  simpl find. rewrite Nat.eqb_refl. simpl snd.
  destruct (existsb is_add_subplot (calls f)).
  - rewrite run_ret, app_nil_r. destruct f; reflexivity.
  - rewrite run_bind, draw_run by assumption. reflexivity.
Qed.

Lemma plt_close_current_run (s : process_state) (l : list (nat * Figure))
  (n : nat) (f : Figure) :
  fresh n l ->
  runState plt_close_current (set_figs s (l ++ [(n, f)])) = (tt, set_figs s l).
Proof.
  intros Hl. unfold plt_close_current. rewrite run_bind.
  simpl runState at 1. cbv beta iota.
  unfold fignums. simpl figs. rewrite last_fignum.
  apply plt_close_run. assumption.
Qed.

(** The figure after [imshow] and [axis('off')]. *)
Lemma save_spectrogram_run (s : process_state) (l : list (nat * Figure))
  (n : nat) (f : Figure) (spectrogram : ndarray) (file_path : string) :
  fresh n l ->
  runState (save_spectrogram spectrogram file_path)
    (set_figs s (l ++ [(n, f)])) =
  (tt,
   set_figs
     (write_file s file_path
        (print_figure (rc s)
           (mk_Figure (figsize f) (dpi f)
              (((calls f ++
                 if existsb is_add_subplot (calls f)
                 then [] else [add_subplot_call]) ++
                [imshow_call spectrogram]) ++ [axis_call "off"]))
           None "tight" 0))
     l).
Proof.
  intros Hl. unfold save_spectrogram, plt_imshow, plt_axis.
  rewrite !run_bind, plt_gca_run by assumption. cbv beta iota.
  cbn [axes_figure].
  rewrite draw_run by assumption. cbn [figsize dpi calls]. cbv beta iota.
  repeat run_step.
  apply plt_close_current_run. assumption.
Qed.

End SavingFacts.

(** X8.  With no figure open, [save_spectrogram] makes a figure of the
    configured default size and resolution, whatever the size of the
    array, shows the array on it without axes, writes it to
    [file_path] and closes it: one file more, no figure left. *)
Theorem save_spectrogram_from_no_figure :
  forall (librosa : Librosa) (imaging : Imaging) (image_plot : ImagePlot)
         (spectrogram : ndarray) (file_path : string)
         (config : rcParams) (files : list (string * bytes)),
    runState (save_spectrogram spectrogram file_path)
      (mk_state [] config files) =
    (tt,
     mk_state [] config
       ((file_path,
         print_figure config
           (mk_Figure (rc_figsize config) (rc_dpi config)
              [add_subplot_call; imshow_call spectrogram; axis_call "off"])
           None "tight" 0) :: files)).
Proof. intros. reflexivity. Qed.

(** X9.  With figures open, [save_spectrogram] draws on the current
    one, over what it already shows, writes that to [file_path] and
    closes it: the figure that was current before the call is gone
    afterwards, the others are as they were. *)
Theorem save_spectrogram_takes_the_current_figure :
  forall (librosa : Librosa) (imaging : Imaging) (image_plot : ImagePlot)
         (spectrogram : ndarray) (file_path : string)
         (s : process_state) (others : list (nat * Figure))
         (n : nat) (current : Figure),
    figs s = others ++ [(n, current)] ->
    fresh n others ->
    runState (save_spectrogram spectrogram file_path) s =
    (tt,
     mk_state others (rc s)
       ((file_path,
         print_figure (rc s)
           (mk_Figure (figsize current) (dpi current)
              (calls current ++
               (if existsb is_add_subplot (calls current)
                then [] else [add_subplot_call]) ++
               [imshow_call spectrogram; axis_call "off"]))
           None "tight" 0) :: disk s)).
Proof.
  intros librosa imaging image_plot spectrogram file_path s others n current
    Hfigs Hfresh.
  rewrite <- (set_figs_same s), Hfigs.
  rewrite save_spectrogram_run by assumption.
  rewrite <- !app_assoc. reflexivity.
Qed.

(** From the state with figures 3 and 1 open: figure 1 is drawn on and
    closed. *)
Lemma save_spectrogram_takes_figure_1 :
  runState
    (@save_spectrogram librosa_symbolic imaging_symbolic image_plot_symbolic
       (opened (mk_saved (mk_Figure (1, 1) 100 []) None "tight" 0))
       "out.png")
    busy_state =
  (tt,
   mk_state
     [(3%nat, mk_Figure (6.4, 4.8) 100 [title_call "left open"])]
     (rc busy_state)
     [("out.png"%string,
       mk_saved
         (mk_Figure (2, 2) 72
            [add_subplot_call; title_call "imshow"; axis_call "off"])
         None "tight" 0)]).
Proof.
  apply (@save_spectrogram_takes_the_current_figure
           librosa_symbolic imaging_symbolic image_plot_symbolic
           (opened (mk_saved (mk_Figure (1, 1) 100 []) None "tight" 0))
           "out.png" busy_state
           [(3%nat, mk_Figure (6.4, 4.8) 100 [title_call "left open"])]
           1%nat (mk_Figure (2, 2) 72 [])).
  - reflexivity.
  - repeat constructor. simpl. discriminate.
Defined.

(** X10.  Generating a spectrogram and saving it, with no figure open
    at the start: the file holds a figure of the configured default
    size showing the pixels, not the [width] by [height] figure they
    were rendered from, and no figure is left open. *)
Theorem gen_then_save_spectrogram :
  forall (constants : Constants) (librosa : Librosa) (imaging : Imaging)
         (image_plot : ImagePlot) (audio : AudioData) (mel show_axis : bool)
         (width height : Z) (file_path : string)
         (config : rcParams) (files : list (string * bytes)),
    let start := mk_state [] config files in
    let pixels :=
      fst (runState (gen_spectrogram audio mel show_axis width height) start) in
    runState
      (image <- gen_spectrogram audio mel show_axis width height ;;
       save_spectrogram image file_path)
      start =
    (tt,
     mk_state [] config
       ((file_path,
         print_figure config
           (mk_Figure (rc_figsize config) (rc_dpi config)
              [add_subplot_call; imshow_call pixels; axis_call "off"])
           None "tight" 0) :: files)).
Proof.
  intros constants librosa imaging image_plot audio mel show_axis width height
    file_path config files start pixels.
  subst pixels. rewrite run_bind, gen_spectrogram_run. reflexivity.
Qed.

(** ** The script *)

(** Case analysis on the innermost test of the goal. *)
Ltac break_match :=
  match goal with
  | |- context [match ?x with _ => _ end] =>
      lazymatch x with
      | context [match _ with _ => _ end] => fail
      | _ => destruct x eqn:?
      end
  end.

(** One fact of [sample_facts] at the end of one path through the
    body. *)
Ltac sample_fact :=
  intros;
  try discriminate;
  repeat match goal with
         | H : inl _ = inl _ |- _ => injection H as H; try subst
         | H : Some _ = Some _ |- _ => injection H as H; try subst
         | H : nth_error ?l 0 = None |- _ => destruct l; [|discriminate H]
         end;
  first
    [ reflexivity
    | solve [repeat split; reflexivity]
    | solve [eexists; reflexivity]
    | solve [do 2 eexists; eassumption]
    | solve [left; reflexivity]
    | solve [right; do 2 eexists; eassumption]
    | solve [repeat constructor] ].

Section ScriptFacts.
Variables image_array failure : Type.

Lemma process_sample_calls
  (sound_path directory output_path : option string)
  (show mel clean_data show_axis : bool) (i : nat)
  (env : environment image_array failure)
  (history : list (call image_array)) :
  exists (made : list (call image_array)) (r : raised failure + unit),
    process_sample sound_path directory output_path show mel clean_data
      show_axis i env history = (history ++ made, r) /\
    sample_facts sound_path output_path env i made r.
Proof.
  unfold process_sample, sample_facts, expected_saves, lacks_extension,
    fixed_path, is_prefix.
  cbn [bind ret Monad_script]. unfold perform, getitem.
  destruct output_path as [path|];
    [destruct (String.eqb path "") eqn:Hpath;
       [|destruct (str_split "." path) as [|first [|second pieces]] eqn:Hsplit]
    |];
    cbn [nth_error].
  all: repeat (break_match; cbn [fst snd]).
  all: eexists; eexists; (split; [rewrite <- ?app_assoc; reflexivity|]).
  all: cbn [saved_paths flat_map app filter is_gen length andb negb about_path].
  all: repeat match goal with |- _ /\ _ => split end.
  all: sample_fact.
Qed.

Lemma for_range_turns
  (body : nat -> script image_array failure unit)
  (P : environment image_array failure -> nat -> list (call image_array) ->
       raised failure + unit -> Prop) :
  (forall i env history,
      exists (made : list (call image_array)) (r : raised failure + unit),
        body i env history = (history ++ made, r) /\ P env i made r) ->
  forall count start env history,
    exists (made : list (call image_array)) (r : raised failure + unit),
      for_range image_array failure start count body env history =
      (history ++ made, r) /\
      turns (P env) start count made r.
Proof.
  intros Hbody. induction count as [|count IH]; intros start env history.
  - exists [], (inr tt). split.
    + cbn. rewrite app_nil_r. reflexivity.
    + constructor.
  - cbn [for_range bind Monad_script].
    destruct (Hbody start env history) as (made & r & Hrun & HP).
    rewrite Hrun. destruct r as [e|[]].
    + exists made, (inl e). split; [reflexivity|]. constructor. assumption.
    + destruct (IH (S start) env (history ++ made)) as (made' & r' & Hrest & HT).
      exists (made ++ made'), r'. split.
      * rewrite Hrest, app_assoc. reflexivity.
      * econstructor; eassumption.
Qed.

(** A run of [process], from no call made: its turns. *)
Lemma process_turns
  (sound_path directory : option string) (number_of_samples : pyobject)
  (output_path : option string) (show mel clean_data show_axis : bool)
  (env : environment image_array failure) :
  turns (sample_facts sound_path output_path env) 0
    (samples number_of_samples)
    (fst (process sound_path directory number_of_samples output_path
            show mel clean_data show_axis env []))
    (snd (process sound_path directory number_of_samples output_path
            show mel clean_data show_axis env [])).
Proof.
  unfold process.
  destruct (for_range_turns
              (process_sample sound_path directory output_path show mel
                 clean_data show_axis)
              (sample_facts sound_path output_path)
              (process_sample_calls sound_path directory output_path show mel
                 clean_data show_axis)
              (samples number_of_samples) 0%nat env [])
    as (made & r & Hrun & HT).
  rewrite Hrun. exact HT.
Qed.



Lemma turns_generated (sound_path output_path : option string)
  (env : environment image_array failure) (start count : nat)
  (made : list (call image_array)) (r : raised failure + unit) :
  turns (sample_facts sound_path output_path env) start count made r ->
  r = inr tt -> length (filter is_gen made) = count.
Proof.
  induction 1 as [start|start count made e HP
                  |start count made made' r HP HT IH]; intros Hr.
  - reflexivity.
  - discriminate.
  - destruct HP as (_ & Hok & _). destruct (Hok eq_refl) as (_ & Hgen & _).
    rewrite filter_app, length_app, Hgen, (IH Hr). reflexivity.
Qed.

Lemma turns_about_path (sound_path output_path : option string)
  (env : environment image_array failure) (start count : nat)
  (made : list (call image_array)) (r : raised failure + unit)
  (path : string) :
  turns (sample_facts sound_path output_path env) start count made r ->
  fixed_path sound_path = Some path ->
  Forall (about_path path) made.
Proof.
  induction 1 as [start|start count made e HP
                  |start count made made' r HP HT IH]; intros Hpath.
  - constructor.
  - destruct HP as (_ & _ & _ & _ & Hfix). auto.
  - destruct HP as (_ & _ & _ & _ & Hfix).
    apply Forall_app. split; auto.
Qed.


(** An exception is the surroundings' own, or [IndexError] for one of
    the two reasons the body has. *)
Lemma turns_exception (sound_path output_path : option string)
  (env : environment image_array failure) (start count : nat)
  (made : list (call image_array)) (r : raised failure + unit) :
  turns (sample_facts sound_path output_path env) start count made r ->
  (forall e, r = inl (collaborator_error e) ->
             exists history c, env history c = inl e) /\
  (r = inl IndexError ->
   lacks_extension output_path = true \/
   exists history audio,
     env history (pipeline_transform_call image_array [audio]) = inr []).
Proof.
  induction 1 as [start|start count made e HP
                  |start count made made' r HP HT IH].
  - split; intros; discriminate.
  - destruct HP as (_ & _ & Hcol & Hidx & _). split; assumption.
  - exact IH.
Qed.

Lemma turns_reliable (sound_path output_path : option string)
  (env : environment image_array failure) (start count : nat)
  (made : list (call image_array)) (r : raised failure + unit) :
  turns (sample_facts sound_path output_path env) start count made r ->
  reliable env -> lacks_extension output_path = false -> r = inr tt.
Proof.
  intros HT [Hall Hsome] Hext.
  destruct (turns_exception _ _ _ _ _ _ _ HT) as [Hcol Hidx].
  destruct r as [[|e]|[]]; [| |reflexivity].
  - destruct (Hidx eq_refl) as [Hno|(history & audio & HX)].
    + congruence.
    + exfalso. exact (Hsome history audio HX).
  - destruct (Hcol e eq_refl) as (history & c & Hc).
    destruct (Hall history c) as [a Ha]. congruence.
Qed.

End ScriptFacts.

(** *** Strings *)

Lemma str_split_nonempty (sep : ascii) (s : string) :
  exists piece pieces, str_split sep s = piece :: pieces.
Proof.
  induction s as [|c rest (piece & pieces & IH)]; simpl.
  - eauto.
  - destruct (Ascii.eqb c sep); [eauto|]. rewrite IH. eauto.
Qed.








Lemma nonempty_string (path : string) :
  path <> ""%string -> String.eqb path "" = false.
Proof. intros H. apply String.eqb_neq. assumption. Qed.

Lemma samples_spec (number_of_samples : pyobject) :
  samples number_of_samples =
  match number_of_samples with
  | py_int n => Z.to_nat (Z.max 1 n)
  | _ => 1%nat
  end.
Proof.
  destruct number_of_samples as [| n | |]; try reflexivity.
  unfold samples. destruct (Z.ltb_spec n 1).
  - rewrite Z.max_l by lia. reflexivity.
  - rewrite Z.max_r by lia. reflexivity.
Qed.


Lemma quiet_reliable : reliable quiet.
Proof.
  split.
  - intros history c. destruct c; eexists; reflexivity.
  - intros history audio. discriminate.
Qed.








(** X13.  With a sound path given, no file is ever picked at random,
    and every path printed and every path read is the one given,
    at every turn and in all surroundings. *)
Theorem process_fixed_sound_path :
  forall (image_array failure : Type) (env : environment image_array failure)
         (path : string) (directory output_path : option string)
         (number_of_samples : pyobject) (show mel clean_data show_axis : bool),
    path <> ""%string ->
    Forall (about_path path)
      (fst (process (Some path) directory number_of_samples output_path
              show mel clean_data show_axis env [])).
Proof.
  intros image_array failure env path directory output_path number_of_samples
    show mel clean_data show_axis Hpath.
  eapply turns_about_path.
  - apply process_turns.
  - unfold fixed_path. rewrite (nonempty_string path Hpath). reflexivity.
Qed.

Lemma process_fixed_sound_path_a_wav :
  Forall (about_path "a.wav")
    (fst (process (Some "a.wav"%string) (Some "dir"%string) (py_int 2) None
            true false false false quiet [])).
Proof.
  apply (process_fixed_sound_path (AudioData * bool * bool) string quiet
           "a.wav" (Some "dir"%string) None (py_int 2) true false false false).
  discriminate.
Defined.

(** X14.  The number of samples.  A run that ends without exception
    has generated one spectrogram per sample, for [max(1, n)] samples
    when [number_of_samples] is the integer [n] and for one sample
    when it is anything else; and a run ends without exception where
    the surroundings raise nothing and the output path, if given, has
    its dot. *)
Theorem process_sample_count :
  forall (image_array failure : Type) (env : environment image_array failure)
         (sound_path directory output_path : option string)
         (number_of_samples : pyobject) (show mel clean_data show_axis : bool),
    let run :=
      process sound_path directory number_of_samples output_path
        show mel clean_data show_axis env [] in
    (snd run = inr tt ->
     length (filter is_gen (fst run)) =
     match number_of_samples with
     | py_int n => Z.to_nat (Z.max 1 n)
     | _ => 1%nat
     end) /\
    (reliable env -> lacks_extension output_path = false ->
     snd run = inr tt).
Proof.
  intros image_array failure env sound_path directory output_path
    number_of_samples show mel clean_data show_axis run.
  pose proof (process_turns image_array failure sound_path directory
                number_of_samples output_path show mel clean_data show_axis
                env) as HT.
  fold run in HT. split.
  - intros Hr. rewrite <- samples_spec.
    exact (turns_generated _ _ _ _ _ _ _ _ _ HT Hr).
  - intros Hrel Hext. exact (turns_reliable _ _ _ _ _ _ _ _ _ HT Hrel Hext).
Qed.

(** A count of -3 and no count at all: one sample each. *)
Lemma process_sample_count_defaults :
  length (filter is_gen
            (fst (process None (Some "dir"%string) (py_int (-3)) None
                    false true false false quiet []))) = 1%nat /\
  length (filter is_gen
            (fst (process None (Some "dir"%string) py_None None
                    false true false false quiet []))) = 1%nat.
Proof.
  split.
  - destruct (process_sample_count (AudioData * bool * bool) string quiet
                None (Some "dir"%string) None (py_int (-3))
                false true false false) as [Hcount Hends].
    apply Hcount, Hends; [exact quiet_reliable | reflexivity].
  - destruct (process_sample_count (AudioData * bool * bool) string quiet
                None (Some "dir"%string) None py_None
                false true false false) as [Hcount Hends].
    apply Hcount, Hends; [exact quiet_reliable | reflexivity].
Defined.
